(** * tao/json/external/pegtl/internal/always_false.hpp

    The header declares one class template,

      template< typename... >
      struct always_false
         : std::false_type
      {
      };

    The development models class definitions as data (class-key, base
    specifiers, members), class templates as functions from template
    argument lists to class definitions, and member lookup, constant
    evaluation and object operations as functions over that data.  The
    standard library's [std::integral_constant] is written down from its
    synopsis in <type_traits>. *)

From Stdlib Require Import List String Bool ZArith Permutation.
Import ListNotations.
Open Scope string_scope.
Open Scope list_scope.
Set Warnings "-register-all".

(** ** Types and template arguments *)

(** Values of constant expressions. *)
Inductive constant : Type :=
| Cbool (b : bool)
| Cint (z : Z).

(** C++ types as they can be supplied for a [typename] parameter.  A class
    type is named by its qualified name and its template argument list. *)
Inductive cpp_type : Type :=
| Tvoid
| Tbool
| Tchar
| Tint
| Tlong
| Tdouble
| Tpointer (t : cpp_type)
| Tlref (t : cpp_type)
| Tconst (t : cpp_type)
| Tarray (t : cpp_type) (n : nat)
| Tfunction (ret : cpp_type) (params : list cpp_type)
| Tclass (name : string) (args : list template_arg)
with template_arg : Type :=
| TypeArg (t : cpp_type)
| NonTypeArg (c : constant).

(** The parameters a class template can declare: [typename T], [typename...]
    and a non-type parameter such as [T v]. *)
Inductive template_param : Type :=
| TypenameParam
| TypenamePack
| NonTypeParam.

(** ** Computations over the program state

    Member function bodies are state-passing and fallible: [None] is an
    evaluation that does not produce a value. *)
Module Comp.

Definition M (world A : Type) : Type := world -> option (A * world).

Definition ret {world A : Type} (a : A) : M world A :=
  fun w => Some (a, w).

Definition bind {world A B : Type} (m : M world A) (k : A -> M world B)
  : M world B :=
  fun w => match m w with
           | Some (a, w') => k a w'
           | None => None
           end.

Definition put {world : Type} (w' : world) : M world unit :=
  fun _ => Some (tt, w').

Definition fail {world A : Type} : M world A :=
  fun _ => None.

End Comp.

Notation "x <- m ;; k" := (Comp.bind m (fun x => k))
  (at level 61, m at next level, right associativity).

(** ** Class definitions *)

Inductive class_key : Type := Kstruct | Kclass.

Inductive access : Type := Public | Protected | Private.

(** What names a member function: an identifier, [operator T] or
    [operator()]. *)
Inductive function_name : Type :=
| Fnamed (name : string)
| Fconversion (target : cpp_type)
| Fcall.

Section Classes.

(** The mutable state of the running program; nothing is assumed of it. *)
Variable world : Type.

Record member_function : Type := {
  mf_name : function_name;
  mf_constexpr : bool;
  mf_const : bool;
  mf_noexcept : bool;
  mf_virtual : bool;
  mf_explicit : bool;
  mf_return : cpp_type;
  mf_body : Comp.M world constant
}.

Inductive member : Type :=
| StaticDataMember (name : string) (is_constexpr : bool) (ty : cpp_type)
                   (init : constant)
| DataMember (name : string) (ty : cpp_type)
| TypeAlias (name : string) (target : cpp_type)
| Constructor (params : list cpp_type) (deleted : bool)
| MemberFunction (f : member_function).

(** A class definition: class-key, the type it defines, its base
    specifiers (an optional access specifier, a [virtual] flag and the
    base class) and its member specification with the access of each
    member. *)
Inductive class_def : Type :=
| Class (key : class_key) (self : cpp_type)
        (bases : list (option access * bool * class_def))
        (members : list (access * member)).

Definition c_key (c : class_def) : class_key :=
  match c with Class k _ _ _ => k end.
Definition c_self (c : class_def) : cpp_type :=
  match c with Class _ s _ _ => s end.
Definition c_bases (c : class_def) : list (option access * bool * class_def) :=
  match c with Class _ _ bs _ => bs end.
Definition c_members (c : class_def) : list (access * member) :=
  match c with Class _ _ _ ms => ms end.

(** Without an access specifier a base of a [struct] is public and a base
    of a [class] is private. *)
Definition default_access (k : class_key) : access :=
  match k with Kstruct => Public | Kclass => Private end.

Definition base_access (k : class_key) (spec : option access) : access :=
  match spec with Some a => a | None => default_access k end.

(** A class template: its template parameter list and its body, which may
    mention the arguments. *)
Record class_template : Type := {
  t_params : list template_param;
  t_body : list template_arg -> class_def
}.

(** Matching a template argument list against a parameter list.  A
    [typename...] pack, which has to come last, takes all the remaining
    arguments provided they are types. *)
Definition is_type_arg (a : template_arg) : bool :=
  match a with TypeArg _ => true | NonTypeArg _ => false end.

Fixpoint args_match (ps : list template_param) (args : list template_arg)
  : bool :=
  match ps with
  | [] => match args with [] => true | _ :: _ => false end
  | TypenamePack :: ps' =>
      match ps' with
      | [] => forallb is_type_arg args
      | _ :: _ => false
      end
  | TypenameParam :: ps' =>
      match args with
      | TypeArg _ :: args' => args_match ps' args'
      | _ => false
      end
  | NonTypeParam :: ps' =>
      match args with
      | NonTypeArg _ :: args' => args_match ps' args'
      | _ => false
      end
  end.

(** Naming a specialization [tmpl< args >] instantiates the template body
    when the arguments fit the parameters and is ill-formed otherwise. *)
Definition instantiate (tmpl : class_template) (args : list template_arg)
  : option class_def :=
  if args_match (t_params tmpl) args then Some (t_body tmpl args) else None.

End Classes.

Arguments mf_name {world} _.
Arguments mf_constexpr {world} _.
Arguments mf_const {world} _.
Arguments mf_noexcept {world} _.
Arguments mf_virtual {world} _.
Arguments mf_explicit {world} _.
Arguments mf_return {world} _.
Arguments mf_body {world} _.
Arguments StaticDataMember {world} _ _ _ _.
Arguments DataMember {world} _ _.
Arguments TypeAlias {world} _ _.
Arguments Constructor {world} _ _.
Arguments MemberFunction {world} _.
Arguments Class {world} _ _ _ _.
Arguments c_key {world} _.
Arguments c_self {world} _.
Arguments c_bases {world} _.
Arguments c_members {world} _.
Arguments t_params {world} _.
Arguments t_body {world} _ _.
Arguments instantiate {world} _ _.

(** ** Equality of types and names *)

Definition constant_eqb (a b : constant) : bool :=
  match a, b with
  | Cbool x, Cbool y => Bool.eqb x y
  | Cint x, Cint y => Z.eqb x y
  | _, _ => false
  end.

Fixpoint type_eqb (a b : cpp_type) {struct a} : bool :=
  match a, b with
  | Tvoid, Tvoid | Tbool, Tbool | Tchar, Tchar | Tint, Tint
  | Tlong, Tlong | Tdouble, Tdouble => true
  | Tpointer x, Tpointer y | Tlref x, Tlref y | Tconst x, Tconst y =>
      type_eqb x y
  | Tarray x n, Tarray y m => type_eqb x y && Nat.eqb n m
  | Tfunction r ps, Tfunction r' ps' =>
      type_eqb r r'
      && (fix all2 (l : list cpp_type) (l' : list cpp_type) : bool :=
            match l, l' with
            | [], [] => true
            | x :: k, y :: k' => type_eqb x y && all2 k k'
            | _, _ => false
            end) ps ps'
  | Tclass n xs, Tclass m ys =>
      String.eqb n m
      && (fix all2 (l : list template_arg) (l' : list template_arg) : bool :=
            match l, l' with
            | [], [] => true
            | x :: k, y :: k' => arg_eqb x y && all2 k k'
            | _, _ => false
            end) xs ys
  | _, _ => false
  end
with arg_eqb (a b : template_arg) {struct a} : bool :=
  match a, b with
  | TypeArg x, TypeArg y => type_eqb x y
  | NonTypeArg x, NonTypeArg y => constant_eqb x y
  | _, _ => false
  end.

Definition function_name_eqb (a b : function_name) : bool :=
  match a, b with
  | Fnamed x, Fnamed y => String.eqb x y
  | Fconversion x, Fconversion y => type_eqb x y
  | Fcall, Fcall => true
  | _, _ => false
  end.

(** ** Member lookup and constant evaluation *)

Inductive error : Type :=
| IllFormedSpecialization
| NameNotFound
| AmbiguousName
| Inaccessible
| NotAConstant
| NotAType
| NotAFunction.

Inductive result (A : Type) : Type :=
| Ok (a : A)
| Err (e : error).
Arguments Ok {A} _.
Arguments Err {A} _.

(** The outcome of looking a name up in the scope of a class.  A found
    member comes with its access as seen from outside the class it was
    looked up in; [None] is a member that cannot be accessed from there. *)
Inductive lookup_result (A : Type) : Type :=
| Found (acc : option access) (a : A)
| NotFound
| Ambiguous.
Arguments Found {A} _ _.
Arguments NotFound {A}.
Arguments Ambiguous {A}.

Definition access_max (a b : access) : access :=
  match a, b with
  | Private, _ | _, Private => Private
  | Protected, _ | _, Protected => Protected
  | Public, Public => Public
  end.

(** Access of a base class member when named through a derived class:
    private members of the base cannot be accessed, the others are at most
    as accessible as the base itself. *)
Definition through_base (b : access) (m : option access) : option access :=
  match m with
  | Some Private | None => None
  | Some a => Some (access_max b a)
  end.

Section Lookup.

Variable world : Type.

(** The name a member declaration introduces into the class scope;
    constructors have none. *)
Definition declared_name (m : member world) : option function_name :=
  match m with
  | StaticDataMember n _ _ _ => Some (Fnamed n)
  | DataMember n _ => Some (Fnamed n)
  | TypeAlias n _ => Some (Fnamed n)
  | Constructor _ _ => None
  | MemberFunction f => Some (mf_name f)
  end.

Definition declares (n : function_name) (m : member world) : bool :=
  match declared_name m with
  | Some n' => function_name_eqb n n'
  | None => false
  end.

Definition find_own (n : function_name) (ms : list (access * member world))
  : option (access * member world) :=
  find (fun am => declares n (snd am)) ms.

(** Two base classes that both provide the name make it ambiguous (the
    case of one entity reached along two paths is not distinguished). *)
Definition merge (r1 r2 : lookup_result (member world))
  : lookup_result (member world) :=
  match r1, r2 with
  | NotFound, r | r, NotFound => r
  | _, _ => Ambiguous
  end.

Definition seen_through (b : access) (r : lookup_result (member world))
  : lookup_result (member world) :=
  match r with
  | Found a m => Found (through_base b a) m
  | NotFound => NotFound
  | Ambiguous => Ambiguous
  end.

(** Class member lookup: a declaration in the class itself hides the
    base classes; otherwise the name is looked up in every base. *)
Fixpoint lookup (n : function_name) (c : class_def world)
  : lookup_result (member world) :=
  match c with
  | Class k _ bs ms =>
      match find_own n ms with
      | Some (a, m) => Found (Some a) m
      | None =>
          (fix in_bases (l : list (option access * bool * class_def world))
             : lookup_result (member world) :=
             match l with
             | [] => NotFound
             | (spec, _, b) :: l' =>
                 merge (seen_through (base_access k spec) (lookup n b))
                       (in_bases l')
             end) bs
      end
  end.

(** Name lookup followed by the access check of a use outside the
    class. *)
Definition lookup_public (n : function_name) (c : class_def world)
  : result (member world) :=
  match lookup n c with
  | Found (Some Public) m => Ok m
  | Found _ _ => Err Inaccessible
  | NotFound => Err NameNotFound
  | Ambiguous => Err AmbiguousName
  end.

(** [C::name] as a constant expression: a [constexpr] static data member
    evaluates to its initializer. *)
Definition static_constant (c : class_def world) (n : string)
  : result constant :=
  match lookup_public (Fnamed n) c with
  | Ok (StaticDataMember _ true _ v) => Ok v
  | Ok _ => Err NotAConstant
  | Err e => Err e
  end.

(** The declared type of the static data member [C::name]. *)
Definition static_type (c : class_def world) (n : string)
  : result cpp_type :=
  match lookup_public (Fnamed n) c with
  | Ok (StaticDataMember _ _ ty _) => Ok ty
  | Ok _ => Err NotAConstant
  | Err e => Err e
  end.

(** [typename C::name]: the type a member typedef stands for. *)
Definition member_type (c : class_def world) (n : string)
  : result cpp_type :=
  match lookup_public (Fnamed n) c with
  | Ok (TypeAlias _ t) => Ok t
  | Ok _ => Err NotAType
  | Err e => Err e
  end.

Definition member_fn (c : class_def world) (n : function_name)
  : result (member_function world) :=
  match lookup_public n c with
  | Ok (MemberFunction f) => Ok f
  | Ok _ => Err NotAFunction
  | Err e => Err e
  end.

End Lookup.

Arguments declared_name {world} _.
Arguments find_own {world} _ _.
Arguments lookup {world} _ _.
Arguments lookup_public {world} _ _.
Arguments static_constant {world} _ _.
Arguments static_type {world} _ _.
Arguments member_type {world} _ _.
Arguments member_fn {world} _ _.

(** ** Properties of classes and operations on their objects *)

Definition access_leb (a b : access) : bool :=
  match a, b with
  | Public, _ => true
  | Protected, (Protected | Private) => true
  | Private, Private => true
  | _, _ => false
  end.

(** Contextual conversion of a constant to [bool]. *)
Definition to_bool (c : constant) : bool :=
  match c with
  | Cbool b => b
  | Cint z => negb (Z.eqb z 0)
  end.

Section Objects.

Variable world : Type.

Definition own_data_members (ms : list (access * member world))
  : list (string * cpp_type) :=
  flat_map (fun am => match snd am with
                      | DataMember n t => [(n, t)]
                      | _ => []
                      end) ms.

(** The non-static data members of a complete object of the class, those
    of its base class subobjects first. *)
Fixpoint data_members (c : class_def world) : list (string * cpp_type) :=
  match c with
  | Class _ _ bs ms =>
      (fix of_bases (l : list (option access * bool * class_def world))
         : list (string * cpp_type) :=
         match l with
         | [] => []
         | (_, _, b) :: l' => data_members b ++ of_bases l'
         end) bs
      ++ own_data_members ms
  end.

Definition own_member_functions (ms : list (access * member world))
  : list (member_function world) :=
  flat_map (fun am => match snd am with
                      | MemberFunction f => [f]
                      | _ => []
                      end) ms.

(** Every member function of the class, declared or inherited. *)
Fixpoint member_functions (c : class_def world)
  : list (member_function world) :=
  match c with
  | Class _ _ bs ms =>
      own_member_functions ms
      ++ (fix of_bases (l : list (option access * bool * class_def world))
            : list (member_function world) :=
            match l with
            | [] => []
            | (_, _, b) :: l' => member_functions b ++ of_bases l'
            end) bs
  end.

(** Every static data member of the class, declared or inherited, as
    name, [constexpr] flag and initializer. *)
Fixpoint static_data_members (c : class_def world)
  : list (string * bool * constant) :=
  match c with
  | Class _ _ bs ms =>
      flat_map (fun am => match snd am with
                          | StaticDataMember n ce _ v => [(n, ce, v)]
                          | _ => []
                          end) ms
      ++ (fix of_bases (l : list (option access * bool * class_def world))
            : list (string * bool * constant) :=
            match l with
            | [] => []
            | (_, _, b) :: l' => static_data_members b ++ of_bases l'
            end) bs
  end.

(** [std::is_empty]: no non-static data members, no virtual functions, no
    virtual base classes and no non-empty base classes. *)
Fixpoint is_empty (c : class_def world) : bool :=
  match c with
  | Class _ _ bs ms =>
      match own_data_members ms with [] => true | _ :: _ => false end
      && negb (existsb (fun f => mf_virtual f) (own_member_functions ms))
      && (fix bases_empty (l : list (option access * bool * class_def world))
            : bool :=
            match l with
            | [] => true
            | (_, virt, b) :: l' => negb virt && is_empty b && bases_empty l'
            end) bs
  end.

Definition user_constructors (ms : list (access * member world))
  : list (access * list cpp_type * bool) :=
  flat_map (fun am => match snd am with
                      | Constructor ps del => [(fst am, ps, del)]
                      | _ => []
                      end) ms.

(** Types a defaulted default constructor can default-initialize a
    member of.  References and const-qualified members cannot be; class
    types are not followed and count as not initializable. *)
Definition default_initializable (t : cpp_type) : bool :=
  match t with
  | Tbool | Tchar | Tint | Tlong | Tdouble | Tpointer _ => true
  | _ => false
  end.

(** Whether [C()] is well-formed in a context that may use members of
    access up to [ctx] ([Public] outside the class, [Protected] in a
    derived class).  A class without user-declared constructors has an
    implicit public default constructor, which is deleted when a base or
    a member cannot be default-initialized. *)
Fixpoint default_constructible_in (ctx : access) (c : class_def world)
  : bool :=
  match c with
  | Class _ _ bs ms =>
      match user_constructors ms with
      | [] =>
          forallb (fun nt => default_initializable (snd nt))
                  (own_data_members ms)
          && (fix bases_ok (l : list (option access * bool * class_def world))
                : bool :=
                match l with
                | [] => true
                | (_, _, b) :: l' =>
                    default_constructible_in Protected b && bases_ok l'
                end) bs
      | ctors =>
          existsb (fun apd =>
                     match apd with
                     | (a, [], false) => access_leb a ctx
                     | _ => false
                     end) ctors
      end
  end.

(** [std::is_default_constructible]. *)
Definition is_default_constructible (c : class_def world) : bool :=
  default_constructible_in Public c.

(** Whether [b] is a direct public base class of [c]. *)
Definition publicly_derives_from (c b : class_def world) : bool :=
  existsb (fun sb => match sb with
                     | (spec, _, b') =>
                         match base_access (c_key c) spec with
                         | Public => type_eqb (c_self b') (c_self b)
                         | _ => false
                         end
                     end) (c_bases c).

(** An object: its class and the values of its non-static data members,
    [None] for a member left uninitialized. *)
Record object : Type := {
  o_class : class_def world;
  o_fields : list (string * option constant)
}.

(** [C x;] *)
Definition default_construct (c : class_def world) : option object :=
  if is_default_constructible c
  then Some {| o_class := c;
               o_fields := map (fun nt => (fst nt, None)) (data_members c) |}
  else None.

(** [x.f()] for the member function named [n]. *)
Definition call_member (x : object) (n : function_name)
  : Comp.M world constant :=
  match member_fn (o_class x) n with
  | Ok f => mf_body f
  | Err _ => Comp.fail
  end.

(** [x()] *)
Definition call_operator (x : object) : Comp.M world constant :=
  call_member x Fcall.

(** Implicit conversion of [x] to [target] through a conversion function
    of exactly that type that is not [explicit]. *)
Definition implicit_conversion (x : object) (target : cpp_type)
  : Comp.M world constant :=
  match member_fn (o_class x) (Fconversion target) with
  | Ok f => if mf_explicit f then Comp.fail else mf_body f
  | Err _ => Comp.fail
  end.

End Objects.

Arguments data_members {world} _.
Arguments member_functions {world} _.
Arguments static_data_members {world} _.
Arguments is_empty {world} _.
Arguments is_default_constructible {world} _.
Arguments publicly_derives_from {world} _ _.
Arguments o_class {world} _.
Arguments o_fields {world} _.
Arguments default_construct {world} _.
Arguments call_member {world} _ _.
Arguments call_operator {world} _.
Arguments implicit_conversion {world} _ _.

(** ** <type_traits>: [std::integral_constant]

    template< class T, T v > struct integral_constant {
      static constexpr T value = v;
      using value_type = T;
      using type = integral_constant;
      constexpr operator value_type() const noexcept { return value; }
      constexpr value_type operator()() const noexcept { return value; }
    };
    using true_type = integral_constant< bool, true >;
    using false_type = integral_constant< bool, false >;                  *)
Module std.
Section TypeTraits.

Variable world : Type.

Definition integral_constant (T : cpp_type) (v : constant)
  : class_def world :=
  let self := Tclass "std::integral_constant" [TypeArg T; NonTypeArg v] in
  let value := v in
  let value_type := T in
  Class Kstruct self []
    [ (Public, StaticDataMember "value" true T value);
      (Public, TypeAlias "value_type" T);
      (Public, TypeAlias "type" self);
      (Public, MemberFunction
                 {| mf_name := Fconversion value_type;
                    mf_constexpr := true;
                    mf_const := true;
                    mf_noexcept := true;
                    mf_virtual := false;
                    mf_explicit := false;
                    mf_return := value_type;
                    mf_body := Comp.ret value |});
      (Public, MemberFunction
                 {| mf_name := Fcall;
                    mf_constexpr := true;
                    mf_const := true;
                    mf_noexcept := true;
                    mf_virtual := false;
                    mf_explicit := false;
                    mf_return := value_type;
                    mf_body := Comp.ret value |}) ].

Definition true_type : class_def world :=
  integral_constant Tbool (Cbool true).

Definition false_type : class_def world :=
  integral_constant Tbool (Cbool false).

End TypeTraits.
End std.

(** ** always_false.hpp *)

Section AlwaysFalse.

Variable world : Type.

(** The namespace macro of config.hpp, which this header only uses. *)
Variable TAO_JSON_PEGTL_NAMESPACE : string.

Definition always_false_name : string :=
  ("tao::" ++ TAO_JSON_PEGTL_NAMESPACE ++ "::internal::always_false")%string.

(** template< typename... > struct always_false : std::false_type {}; *)
Definition always_false : class_template world :=
  {| t_params := [TypenamePack];
     t_body := fun args =>
       Class Kstruct (Tclass always_false_name args)
             [ (None, false, std.false_type world) ]
             [] |}.

(** The specialization [always_false< Ts... >]. *)
Definition always_false_of (Ts : list cpp_type) : option (class_def world) :=
  instantiate always_false (map TypeArg Ts).

(** The constant expression [always_false< Ts... >::value]. *)
Definition always_false_value (Ts : list cpp_type) : result constant :=
  match always_false_of Ts with
  | Some c => static_constant c "value"
  | None => Err IllFormedSpecialization
  end.

(** The predicate evaluated at each of a sequence of argument lists, in
    the order given. *)
Definition evaluate_all (requests : list (list cpp_type))
  : list (result constant) :=
  map always_false_value requests.

End AlwaysFalse.

Arguments always_false_name _ : clear implicits.

(** ** [static_assert] *)

Inductive outcome : Type :=
| Accepted
| Rejected (diagnostic : string).

(** [static_assert( cond, msg );] has no effect when the condition is true
    and otherwise makes the program ill-formed with a diagnostic that
    carries [msg].  A condition that is not a constant expression is
    rejected as well. *)
Definition static_assert (cond : result constant) (msg : string) : outcome :=
  match cond with
  | Ok v => if to_bool v then Accepted else Rejected msg
  | Err _ => Rejected "static_assert: not a constant expression"
  end.

(** * Properties *)

(** ** Template argument matching *)

Lemma forallb_is_type_arg_map (Ts : list cpp_type) :
  forallb is_type_arg (map TypeArg Ts) = true.
Proof.
  induction Ts as [| T Ts IH]; simpl.
  - reflexivity.
  - exact IH.
Qed.

Lemma map_TypeArg_inj (As Bs : list cpp_type) :
  map TypeArg As = map TypeArg Bs -> As = Bs.
Proof.
  revert Bs.
  induction As as [| A As IH]; intros [| B Bs] H; simpl in H;
    try discriminate.
  - reflexivity.
  - inversion H; subst. f_equal. now apply IH.
Qed.

(** A non-type argument does not fit a [typename...] pack. *)
Lemma pack_rejects_non_type_arg (pre post : list template_arg) (c : constant) :
  args_match [TypenamePack] (pre ++ NonTypeArg c :: post) = false.
Proof.
  simpl. induction pre as [| a pre IH]; simpl.
  - reflexivity.
  - rewrite IH. now destruct (is_type_arg a).
Qed.

(** ** Lookup through a single public base *)

Lemma merge_not_found {world : Type} (r : lookup_result (member world)) :
  merge world r NotFound = r.
Proof.
  now destruct r.
Qed.

Lemma lookup_single_base {world : Type} (k : class_key) (s : cpp_type)
      (spec : option access) (virt : bool) (b : class_def world)
      (n : function_name) :
  lookup n (Class k s [ (spec, virt, b) ] [])
  = seen_through world (base_access k spec) (lookup n b).
Proof.
  cbn [lookup find_own find]. apply merge_not_found.
Qed.

(** A class that declares nothing and has one public base presents, to a
    user outside, exactly the members its base presents. *)
Lemma lookup_public_single_base {world : Type} (k : class_key) (s : cpp_type)
      (spec : option access) (virt : bool) (b : class_def world)
      (n : function_name) :
  base_access k spec = Public ->
  lookup_public n (Class k s [ (spec, virt, b) ] []) = lookup_public n b.
Proof.
  intros Hpub. unfold lookup_public.
  rewrite lookup_single_base, Hpub.
  case_eq (lookup n b); simpl.
  - intros [a |] m _; [destruct a |]; reflexivity.
  - reflexivity.
  - reflexivity.
Qed.

Section AlwaysFalseFacts.

Variable world : Type.
Variable TAO_JSON_PEGTL_NAMESPACE : string.

Let NS := TAO_JSON_PEGTL_NAMESPACE.

(** ** The specialization and its base class *)

Lemma always_false_args_match (Ts : list cpp_type) :
  args_match (t_params (always_false world NS)) (map TypeArg Ts) = true.
Proof.
  unfold always_false; simpl. apply forallb_is_type_arg_map.
Qed.

Lemma always_false_of_eq (Ts : list cpp_type) :
  always_false_of world NS Ts
  = Some (Class Kstruct (Tclass (always_false_name NS) (map TypeArg Ts))
                [ (None, false, std.false_type world) ] []).
Proof.
  unfold always_false_of, instantiate.
  now rewrite always_false_args_match.
Qed.

(** Lookup in a specialization declares nothing itself and goes on in
    [std::false_type], with the access unchanged by the public base. *)
Lemma lookup_in_always_false (n : function_name) (Ts : list cpp_type)
      (c : class_def world) :
  always_false_of world NS Ts = Some c ->
  lookup_public n c = lookup_public n (std.false_type world).
Proof.
  rewrite always_false_of_eq. intros [= <-].
  now apply lookup_public_single_base.
Qed.

Lemma always_false_value_eq (Ts : list cpp_type) :
  always_false_value world NS Ts = Ok (Cbool false).
Proof.
  unfold always_false_value.
  destruct (always_false_of world NS Ts) as [c |] eqn:E.
  - unfold static_constant.
    now rewrite (lookup_in_always_false (Fnamed "value") Ts c E).
  - rewrite always_false_of_eq in E. discriminate.
Qed.

(** Distinct argument lists name distinct specializations: the class the
    template yields is a function of the arguments even though its
    [value] is not. *)
Lemma always_false_specialization_inj (As Bs : list cpp_type)
      (a b : class_def world) :
  always_false_of world NS As = Some a ->
  always_false_of world NS Bs = Some b ->
  c_self a = c_self b -> As = Bs.
Proof.
  rewrite !always_false_of_eq. intros [= <-] [= <-]. simpl.
  intros [= H]. now apply map_TypeArg_inj.
Qed.

(** A [static_assert] on the predicate is rejected at every argument
    list, with the message of that assertion. *)
Lemma static_assert_always_false (Ts : list cpp_type) (msg : string) :
  static_assert (always_false_value world NS Ts) msg = Rejected msg.
Proof.
  now rewrite always_false_value_eq.
Qed.

Lemma evaluate_all_nth (requests : list (list cpp_type)) (i : nat)
      (Ts : list cpp_type) :
  nth_error requests i = Some Ts ->
  nth_error (evaluate_all world NS requests) i
  = Some (always_false_value world NS Ts).
Proof.
  intros H. unfold evaluate_all.
  now rewrite nth_error_map, H.
Qed.

(** Every result of a sequence of instantiations is [false]. *)
Lemma evaluate_all_false (requests : list (list cpp_type)) :
  evaluate_all world NS requests
  = repeat (Ok (Cbool false)) (List.length requests).
Proof.
  induction requests as [| Ts requests IH]; simpl.
  - reflexivity.
  - rewrite always_false_value_eq. f_equal. exact IH.
Qed.

(** ** The claims *)

(** C1: for every list of type arguments, the empty one and lists of any
    length included, [always_false< Ts... >::value] is [false], and for no
    list is it [true]. *)
Theorem always_false_is_false :
  forall Ts : list cpp_type,
    always_false_value world NS Ts = Ok (Cbool false)
    /\ always_false_value world NS Ts <> Ok (Cbool true).
Proof.
  intros Ts. rewrite always_false_value_eq. split.
  - reflexivity.
  - discriminate.
Qed.

(** C4: the predicate is total and has no error state: every list of type
    arguments instantiates the template, the value is produced and is
    [false], no error is, and each of its member functions returns a value
    in every program state. *)
Theorem always_false_total :
  forall Ts : list cpp_type,
  exists c : class_def world,
    always_false_of world NS Ts = Some c
    /\ always_false_value world NS Ts = Ok (Cbool false)
    /\ (forall e : error, always_false_value world NS Ts <> Err e)
    /\ Forall (fun f => forall w : world, mf_body f w <> None)
              (member_functions c).
Proof.
  intros Ts. eexists. split; [apply always_false_of_eq |].
  rewrite always_false_value_eq.
  repeat split; try discriminate.
  simpl. repeat constructor; intros w; discriminate.
Qed.

(** C5: the template takes an ordered list of [n] type arguments for every
    [n >= 0] and yields, for each such list, the specialization named by
    exactly that list, whose [value] is a [constexpr] static member of
    declared type [bool] equal to [false]: a constant expression that a
    [static_assert] can evaluate. *)
Theorem always_false_accepts_any_list :
  forall (n : nat) (Ts : list cpp_type),
    List.length Ts = n ->
    args_match (t_params (always_false world NS)) (map TypeArg Ts) = true
    /\ exists c : class_def world,
         always_false_of world NS Ts = Some c
         /\ c_self c = Tclass (always_false_name NS) (map TypeArg Ts)
         /\ In ("value", true, Cbool false) (static_data_members c)
         /\ static_type c "value" = Ok Tbool
         /\ always_false_value world NS Ts = Ok (Cbool false)
         /\ forall msg : string,
              static_assert (always_false_value world NS Ts) msg
              = Rejected msg.
Proof.
  intros n Ts _. split; [apply always_false_args_match |].
  eexists. split; [apply always_false_of_eq |].
  split; [reflexivity |].
  split; [simpl; now left |].
  split; [reflexivity |].
  split; [apply always_false_value_eq |].
  intros msg. apply static_assert_always_false.
Qed.

(** C6: evaluation is deterministic and idempotent: wherever the same
    argument list is evaluated, at any position of any two sequences of
    instantiations, the result is the same, namely [false], and a
    [static_assert] on it fails the same way, with its own message.  However
    a sequence is reordered, every one of its results is still [false], and
    an instantiation repeated any number of times gives [false] each
    time. *)
Theorem always_false_deterministic :
  forall (tu1 tu2 : list (list cpp_type)) (i j : nat) (Ts : list cpp_type)
         (msg : string),
    nth_error tu1 i = Some Ts ->
    nth_error tu2 j = Some Ts ->
    nth_error (evaluate_all world NS tu1) i
    = nth_error (evaluate_all world NS tu2) j
    /\ nth_error (evaluate_all world NS tu1) i = Some (Ok (Cbool false))
    /\ nth_error (evaluate_all world NS tu2) j = Some (Ok (Cbool false))
    /\ option_map (fun r => static_assert r msg)
                  (nth_error (evaluate_all world NS tu1) i)
       = option_map (fun r => static_assert r msg)
                    (nth_error (evaluate_all world NS tu2) j)
    /\ option_map (fun r => static_assert r msg)
                  (nth_error (evaluate_all world NS tu1) i)
       = Some (Rejected msg)
    /\ option_map (fun r => static_assert r msg)
                  (nth_error (evaluate_all world NS tu2) j)
       = Some (Rejected msg)
    /\ (forall tu1' : list (list cpp_type),
          Permutation tu1 tu1' ->
          Permutation (evaluate_all world NS tu1)
                      (evaluate_all world NS tu1')
          /\ evaluate_all world NS tu1'
             = repeat (Ok (Cbool false)) (List.length tu1))
    /\ forall k : nat,
         evaluate_all world NS (repeat Ts k)
         = repeat (always_false_value world NS Ts) k
         /\ evaluate_all world NS (repeat Ts k)
            = repeat (Ok (Cbool false)) k.
Proof.
  intros tu1 tu2 i j Ts msg H1 H2.
  rewrite (evaluate_all_nth tu1 i Ts H1), (evaluate_all_nth tu2 j Ts H2).
  rewrite always_false_value_eq. simpl.
  repeat (split; [reflexivity |]).
  split.
  - intros tu1' HP. split.
    + unfold evaluate_all. now apply Permutation_map.
    + rewrite (Permutation_length HP). apply evaluate_all_false.
  - intros k.
    assert (Hk : evaluate_all world NS (repeat Ts k)
                 = repeat (Ok (Cbool false)) k).
    { rewrite evaluate_all_false. now rewrite repeat_length. }
    split; exact Hk.
Qed.

(** C7: the predicate is stateless: a specialization has no non-static
    data member, its static members are [constexpr], hence immutable, and
    each of its member functions is [const] and hands back the program
    state it was called in. *)
Theorem always_false_stateless :
  forall Ts : list cpp_type,
  exists c : class_def world,
    always_false_of world NS Ts = Some c
    /\ data_members c = []
    /\ Forall (fun s => snd (fst s) = true) (static_data_members c)
    /\ Forall (fun f => mf_const f = true
                        /\ forall w : world,
                             exists v : constant, mf_body f w = Some (v, w))
              (member_functions c).
Proof.
  intros Ts. eexists. split; [apply always_false_of_eq |].
  split; [reflexivity |].
  split; simpl; repeat constructor; intros w; eexists; reflexivity.
Qed.

(** C8: every specialization derives publicly from [std::false_type]; its
    inherited [value] is declared [bool] and is [false], its [value_type]
    is [bool] and its [type] is [std::false_type], that is,
    [std::integral_constant< bool, false >]. *)
Theorem always_false_derives_from_false_type :
  forall Ts : list cpp_type,
  exists c : class_def world,
    always_false_of world NS Ts = Some c
    /\ c_bases c = [ (None, false, std.false_type world) ]
    /\ publicly_derives_from c (std.false_type world) = true
    /\ static_type c "value" = Ok Tbool
    /\ static_constant c "value" = Ok (Cbool false)
    /\ member_type c "value_type" = Ok Tbool
    /\ member_type c "type" = Ok (c_self (std.false_type world))
    /\ c_self (std.false_type world)
       = Tclass "std::integral_constant"
                [TypeArg Tbool; NonTypeArg (Cbool false)].
Proof.
  intros Ts.
  destruct (always_false_of world NS Ts) as [c |] eqn:E.
  - exists c. split; [reflexivity |].
    pose proof (lookup_in_always_false (Fnamed "value") Ts c E) as Hv.
    pose proof (lookup_in_always_false (Fnamed "value_type") Ts c E) as Hvt.
    pose proof (lookup_in_always_false (Fnamed "type") Ts c E) as Ht.
    unfold static_type, static_constant, member_type.
    rewrite Hv, Hvt, Ht.
    rewrite always_false_of_eq in E. injection E as <-.
    repeat split.
  - rewrite always_false_of_eq in E. discriminate.
Qed.

(** C9: the value does not depend on the type arguments: for any two
    argument lists both values exist and are one and the same boolean. *)
Theorem always_false_constant :
  forall As Bs : list cpp_type,
    always_false_value world NS As = always_false_value world NS Bs
    /\ exists b : bool,
         always_false_value world NS As = Ok (Cbool b)
         /\ always_false_value world NS Bs = Ok (Cbool b).
Proof.
  intros As Bs.
  pose proof (always_false_value_eq As) as HA.
  pose proof (always_false_value_eq Bs) as HB.
  split.
  - congruence.
  - exists false. now split.
Qed.

(** C10: every specialization is an empty, default-constructible class; a
    default-constructed instance holds no data, and the conversion
    function and the function call operator it inherits from
    [std::false_type] both return [false], in any program state and
    without changing it. *)
Theorem always_false_instances :
  forall Ts : list cpp_type,
  exists (c : class_def world) (x : object world),
    always_false_of world NS Ts = Some c
    /\ is_empty c = true
    /\ is_default_constructible c = true
    /\ default_construct c = Some x
    /\ o_fields x = []
    /\ member_fn c (Fconversion Tbool)
       = member_fn (std.false_type world) (Fconversion Tbool)
    /\ member_fn c Fcall = member_fn (std.false_type world) Fcall
    /\ forall w : world,
         implicit_conversion x Tbool w = Some (Cbool false, w)
         /\ call_operator x w = Some (Cbool false, w).
Proof.
  intros Ts.
  pose proof (always_false_of_eq Ts) as E.
  do 2 eexists. split; [exact E |].
  split; [reflexivity |].
  split; [reflexivity |].
  split; [reflexivity |].
  split; [reflexivity |].
  unfold member_fn.
  rewrite !(lookup_in_always_false _ Ts _ E).
  split; [reflexivity |].
  split; [reflexivity |].
  intros w. split; reflexivity.
Qed.

End AlwaysFalseFacts.

(** ** Instances at concrete argument lists *)

Example always_false_empty_list :
  always_false_value unit "json_pegtl" [] = Ok (Cbool false).
Proof. reflexivity. Qed.

Example always_false_int_string_bool :
  evaluate_all unit "json_pegtl" [[Tint]; [Tclass "std::string" []]; [Tbool]]
  = [Ok (Cbool false); Ok (Cbool false); Ok (Cbool false)].
Proof. reflexivity. Qed.

Example always_false_rejects_non_type :
  instantiate (always_false unit "json_pegtl") [TypeArg Tint; NonTypeArg (Cint 3)]
  = None.
Proof. reflexivity. Qed.

Example true_type_value :
  static_constant (std.true_type unit) "value" = Ok (Cbool true).
Proof. reflexivity. Qed.

(** With the class-key [class] the same base would be private and [value]
    could not be named from outside. *)
Example class_key_base_is_private :
  static_constant
    (Class Kclass (Tclass "D" []) [ (None, false, std.false_type unit) ] [])
    "value"
  = Err Inaccessible.
Proof. reflexivity. Qed.

(** A member declared in the derived class would hide the inherited one. *)
Example own_member_hides_base :
  static_constant
    (Class Kstruct (Tclass "D" []) [ (None, false, std.false_type unit) ]
           [ (Public, StaticDataMember "value" true Tbool (Cbool true)) ])
    "value"
  = Ok (Cbool true).
Proof. reflexivity. Qed.

(** A member function that writes the program state is told apart from the
    ones of [std::integral_constant]. *)
Example writing_member_changes_state :
  mf_body {| mf_name := Fnamed "reset";
             mf_constexpr := false;
             mf_const := false;
             mf_noexcept := false;
             mf_virtual := false;
             mf_explicit := false;
             mf_return := Tbool;
             mf_body := (_ <- Comp.put 0%nat ;; Comp.ret (Cbool false)) |}
          7%nat
  = Some (Cbool false, 0%nat).
Proof. reflexivity. Qed.

Lemma always_false_accepts_any_list_witness :
  List.length [Tint; Tclass "std::string" []] = 2
  /\ always_false_value unit "json_pegtl" [Tint; Tclass "std::string" []]
     = Ok (Cbool false).
Proof.
  split; [reflexivity |].
  destruct (always_false_accepts_any_list unit "json_pegtl" 2
              [Tint; Tclass "std::string" []] eq_refl)
    as (_ & c & _ & _ & _ & _ & Hv & _).
  exact Hv.
Defined.

Lemma always_false_deterministic_witness :
  nth_error [[Tint]; [Tbool]] 1 = Some [Tbool]
  /\ nth_error [[Tbool]; [Tchar]; [Tint]] 0 = Some [Tbool]
  /\ nth_error (evaluate_all unit "json_pegtl" [[Tint]; [Tbool]]) 1
     = Some (Ok (Cbool false))
  /\ nth_error (evaluate_all unit "json_pegtl" [[Tbool]; [Tchar]; [Tint]]) 0
     = Some (Ok (Cbool false)).
Proof.
  split; [reflexivity |]. split; [reflexivity |].
  destruct (always_false_deterministic unit "json_pegtl"
              [[Tint]; [Tbool]] [[Tbool]; [Tchar]; [Tint]] 1 0 [Tbool]
              "unsupported type" eq_refl eq_refl)
    as (_ & H1 & H2 & _).
  split; [exact H1 | exact H2].
Defined.

(** * The specialization as a type *)

Section AlwaysFalseType.

Variable world : Type.
Variable TAO_JSON_PEGTL_NAMESPACE : string.

Let NS := TAO_JSON_PEGTL_NAMESPACE.

Lemma always_false_name_not_std (args args' : list template_arg) :
  Tclass (always_false_name NS) args <> Tclass "std::integral_constant" args'.
Proof.
  unfold always_false_name. simpl. intros H. discriminate H.
Qed.

(** X4: a specialization is a class of its own: it is neither the type
    [std::false_type] nor the type [std::true_type], and [std::true_type]
    is not among its public bases. *)
Theorem always_false_is_own_class :
  forall Ts : list cpp_type,
  exists c : class_def world,
    always_false_of world NS Ts = Some c
    /\ c_self c <> c_self (std.false_type world)
    /\ c_self c <> c_self (std.true_type world)
    /\ publicly_derives_from c (std.true_type world) = false.
Proof.
  intros Ts. eexists. split; [apply always_false_of_eq |].
  split; [apply always_false_name_not_std |].
  split; [apply always_false_name_not_std | reflexivity].
Qed.

End AlwaysFalseType.
